(** * Countries informer: DTO schemas, weather client and news service

    A shallow embedding of

    - [src/geo/clients/shemas.py]  (pydantic data-transfer objects),
    - [src/geo/clients/weather.py] ([WeatherClient]),
    - [src/news/services/news.py]  ([NewsService]),

    together with the properties of these modules that the specification
    states.  Python exceptions are an explicit error result, the persisted
    store and the remote providers are explicit state. *)

From Stdlib Require Import ZArith PrimFloat.
From stdpp Require Import base option list strings gmap.

Set Warnings "-register-all,-inexact-float".
Local Open Scope string_scope.
Local Open Scope list_scope.
Local Open Scope Z_scope.

(** ** Python values and exceptions *)

Module Py.

(** What [json.loads] produces: [None], [bool], [int], [float], [str],
    [list] and [dict] with [str] keys.  A [float] is a binary64 number.  A
    [dict] is kept as its list of items; the binding of a key is the first
    item that carries it. *)
Inductive json : Type :=
| JNull
| JBool (b : bool)
| JInt (n : Z)
| JFloat (f : float)
| JStr (s : string)
| JArr (items : list json)
| JObj (items : list (string * json)).

(** The exceptions the modelled code can raise or let through. *)
Inductive exn : Type :=
| KeyError (key : json)        (* subscript of a dict by a missing key *)
| IndexError                   (* subscript of a sequence out of range *)
| TypeError                    (* a value of a type the operation does not take *)
| ValidationError              (* pydantic: a field constraint is violated *)
| JSONDecodeError              (* [response.json()] on a text that is not JSON *)
| UnicodeDecodeError           (* [response.json()] on bytes that are not a text *)
| TransportError               (* httpx: timeout, connection failure, ... *)
| DoesNotExist.                (* Django: [Model.objects.get] found no row *)

(** A failed subscript: [KeyError], [IndexError] or [TypeError]. *)
Definition is_subscript_error (e : exn) : bool :=
  match e with
  | KeyError _ | IndexError | TypeError => true
  | _ => false
  end.

(** The outcome of evaluating an expression: a value or a raised exception. *)
Inductive result (A : Type) : Type :=
| Return (a : A)
| Raise (e : exn).
Arguments Return {A} a.
Arguments Raise {A} e.

#[export] Instance result_ret : MRet result := @Return.
#[export] Instance result_bind : MBind result := fun A B f m =>
  match m with
  | Return a => f a
  | Raise e => Raise e
  end.
#[export] Instance result_fmap : FMap result := fun A B f m =>
  match m with
  | Return a => Return (f a)
  | Raise e => Raise e
  end.

Definition raises {A} (m : result A) : bool :=
  match m with Raise _ => true | Return _ => false end.

(** [bool(v)]: the truth value Python tests in [if v] and [v if c else w]. *)
Definition truthy (v : json) : bool :=
  match v with
  | JNull => false
  | JBool b => b
  | JInt n => negb (n =? 0)
  | JFloat f => negb (PrimFloat.eqb f 0%float)
  | JStr s => negb (String.eqb s "")
  | JArr items => match items with [] => false | _ :: _ => true end
  | JObj items => match items with [] => false | _ :: _ => true end
  end.

Fixpoint dict_get (key : string) (items : list (string * json)) : option json :=
  match items with
  | [] => None
  | (k, v) :: rest => if String.eqb k key then Some v else dict_get key rest
  end.

(** [v[key]] with a [str] key. *)
Definition getitem (key : string) (v : json) : result json :=
  match v with
  | JObj items =>
      match dict_get key items with
      | Some x => Return x
      | None => Raise (KeyError (JStr key))
      end
  | _ => Raise TypeError
  end.

(** The position a Python index denotes in a sequence of [n] elements. *)
Definition index_position (i : Z) (n : nat) : option nat :=
  let j := if i <? 0 then i + Z.of_nat n else i in
  if (0 <=? j) && (j <? Z.of_nat n) then Some (Z.to_nat j) else None.

Definition string_of_char (c : Ascii.ascii) : string := String c EmptyString.

(** [v[i]] with an [int] index.  The keys of a [dict] made from JSON are all
    [str], so no [int] is among them. *)
Definition getindex (i : Z) (v : json) : result json :=
  match v with
  | JArr items =>
      match index_position i (length items) ≫= (items !!.) with
      | Some x => Return x
      | None => Raise IndexError
      end
  | JStr s =>
      match index_position i (String.length s) ≫= (fun j => String.get j s) with
      | Some c => Return (JStr (string_of_char c))
      | None => Raise IndexError
      end
  | JObj _ => Raise (KeyError (JInt i))
  | _ => Raise TypeError
  end.

(** [datetime.datetime]: microseconds since the epoch, and the UTC offset in
    seconds of an aware value ([None] for a naive one). *)
Record datetime : Type := {
  posix_us : Z;
  utcoffset : option Z;
}.

(** pydantic's field validators: the value a field of the annotated type
    takes for an input, or [None] when the input is rejected.  What they do
    with inputs of another type (coercion) differs between pydantic
    releases and is left open; an input that already has the field's type
    is taken as it is. *)
Class Pydantic : Type := {
  float_validator : json -> option float;
  int_validator : json -> option Z;
  str_validator : json -> option string;
  datetime_validator : json -> option datetime;
  float_validator_float : forall f, float_validator (JFloat f) = Some f;
  int_validator_int : forall n, int_validator (JInt n) = Some n;
  str_validator_str : forall s, str_validator (JStr s) = Some s;
}.

End Py.

Export Py.

(** ** [geo/clients/shemas.py]: the data-transfer objects

    A [str] is a [string] whose characters stand for code points, so that
    [String.length] is Python's [len].  A constructor is given arguments of
    the annotated types unless it says otherwise; it returns the validated
    object or raises [ValidationError].  [HashableBaseModel] (declared in
    [base/clients/shemas.py]) adds hashing by value to [BaseModel] and no
    validation. *)

Module Shemas.

Record LocationDTO : Type := {
  location_city : string;
  location_alpha2code : string;
}.

(** [alpha2code: str = Field(min_length=2, max_length=2)]. *)
Definition LocationDTO_init (city alpha2code : string) : result LocationDTO :=
  if (2 <=? String.length alpha2code)%nat && (String.length alpha2code <=? 2)%nat
  then Return {| location_city := city; location_alpha2code := alpha2code |}
  else Raise ValidationError.

Record CurrencyInfoDTO : Type := { currency_code : string }.

Record LanguagesInfoDTO : Type := {
  language_name : string;
  language_native_name : string;
}.

#[export] Instance CurrencyInfoDTO_eq_dec : EqDecision CurrencyInfoDTO.
Proof. solve_decision. Defined.
#[export] Instance CurrencyInfoDTO_countable : Countable CurrencyInfoDTO.
Proof.
  refine (inj_countable' currency_code Build_CurrencyInfoDTO _).
  intros []; reflexivity.
Defined.

#[export] Instance LanguagesInfoDTO_eq_dec : EqDecision LanguagesInfoDTO.
Proof. solve_decision. Defined.
#[export] Instance LanguagesInfoDTO_countable : Countable LanguagesInfoDTO.
Proof.
  refine (inj_countable'
            (fun l => (language_name l, language_native_name l))
            (fun p => Build_LanguagesInfoDTO (fst p) (snd p)) _).
  intros []; reflexivity.
Defined.

Record CountryShortDTO : Type := {
  country_name : string;
  country_alpha2code : string;
}.

(** [name: str] and [alpha2code: str], neither with a [Field] constraint. *)
Definition CountryShortDTO_init (name alpha2code : string) : result CountryShortDTO :=
  Return {| country_name := name; country_alpha2code := alpha2code |}.

(** [CountryDTO(CountryShortDTO)]: the inherited fields and its own. *)
Record CountryDTO : Type := {
  country_short : CountryShortDTO;
  alpha3code : string;
  capital : string;
  region : string;
  subregion : string;
  population : Z;
  latitude : float;
  longitude : float;
  demonym : string;
  area : float;
  numeric_code : string;
  flag : string;
  currencies : gset CurrencyInfoDTO;
  languages : gset LanguagesInfoDTO;
}.

Definition CountryDTO_init (name alpha2code alpha3code capital region subregion : string)
    (population : Z) (latitude longitude : float) (demonym : string) (area : float)
    (numeric_code flag : string) (currencies : gset CurrencyInfoDTO)
    (languages : gset LanguagesInfoDTO) : result CountryDTO :=
  short ← CountryShortDTO_init name alpha2code;
  Return {| country_short := short; alpha3code := alpha3code; capital := capital;
            region := region; subregion := subregion; population := population;
            latitude := latitude; longitude := longitude; demonym := demonym;
            area := area; numeric_code := numeric_code; flag := flag;
            currencies := currencies; languages := languages |}.

Record WeatherInfoDTO : Type := {
  temp : float;
  pressure : Z;
  humidity : Z;
  wind_speed : float;
  description : string;
  visibility : Z;
  dt : datetime;
  timezone : Z;
}.

(** [WeatherInfoDTO(temp=..., ...)] on values taken from a JSON body: every
    field is required and validated against its annotation; one rejected
    field makes the construction raise. *)
Definition WeatherInfoDTO_init `{Pydantic}
    (temp pressure humidity wind_speed description visibility dt timezone : json)
    : result WeatherInfoDTO :=
  match float_validator temp, int_validator pressure, int_validator humidity,
        float_validator wind_speed, str_validator description,
        int_validator visibility, datetime_validator dt, int_validator timezone with
  | Some t, Some p, Some h, Some w, Some d, Some v, Some time, Some tz =>
      Return {| temp := t; pressure := p; humidity := h; wind_speed := w;
                description := d; visibility := v; dt := time; timezone := tz |}
  | _, _, _, _, _, _, _, _ => Raise ValidationError
  end.

End Shemas.

Export Shemas.

(** ** [geo/clients/weather.py]: the weather client *)

Module Weather.

(** The bytes of a response body, as [response.json()] finds them: the text
    of a JSON value, a text that is not JSON, or bytes that are no UTF-8
    text at all. *)
Inductive content : Type :=
| Json (v : json)
| NotJson
| NotUtf8.

(** What [httpx] hands back for a request that got an answer. *)
Record response : Type := {
  status_code : Z;
  response_content : content;
}.

(** The value the body decodes to, when it does. *)
Definition body (r : response) : option json :=
  match response_content r with
  | Json v => Some v
  | NotJson | NotUtf8 => None
  end.

(** [response.json()]. *)
Definition response_json (r : response) : result json :=
  match response_content r with
  | Json v => Return v
  | NotJson => Raise JSONDecodeError
  | NotUtf8 => Raise UnicodeDecodeError
  end.

Definition HTTPStatus_OK : Z := 200.

Section Client.

Context `{Pydantic}.

(** [client.get(endpoint)] within [httpx.Client(timeout=REQUESTS_TIMEOUT)]:
    the provider's answer, or the exception httpx raises when the request
    itself fails. *)
Variable client_get : string -> result response.

(** [app.settings.API_KEY_OPENWEATHER]. *)
Variable API_KEY_OPENWEATHER : string.

Definition get_base_url : string :=
  "https://api.openweathermap.org/data/2.5/weather".

(** [Optional[dict]]: Python's [None] is [JNull]. *)
Definition _request (endpoint : string) : result json :=
  response ← client_get endpoint;
  if status_code response =? HTTPStatus_OK
  then response_json response
  else Return JNull.

Definition get_weather (location : string) : result (option WeatherInfoDTO) :=
  result ← _request (get_base_url +:+ "?units=metric&q=" +:+ location
                       +:+ "&appid=" +:+ API_KEY_OPENWEATHER);
  if truthy result then
    temp ← getitem "main" result ≫= getitem "temp";
    pressure ← getitem "main" result ≫= getitem "pressure";
    humidity ← getitem "main" result ≫= getitem "humidity";
    wind_speed ← getitem "wind" result ≫= getitem "speed";
    description ← (getitem "weather" result ≫= getindex 0) ≫= getitem "description";
    visibility ← getitem "visibility" result;
    dt ← getitem "dt" result;
    timezone ← getitem "timezone" result;
    Some <$> WeatherInfoDTO_init temp pressure humidity wind_speed description
                                 visibility dt timezone
  else Return None.

End Client.

(** The address [get_weather] requests. *)
Definition endpoint (API_KEY_OPENWEATHER location : string) : string :=
  get_base_url +:+ "?units=metric&q=" +:+ location +:+ "&appid=" +:+ API_KEY_OPENWEATHER.

(** The branch of [get_weather] taken on a truthy result. *)
Definition project `{Pydantic} (result : json) : Py.result (option WeatherInfoDTO) :=
  temp ← getitem "main" result ≫= getitem "temp";
  pressure ← getitem "main" result ≫= getitem "pressure";
  humidity ← getitem "main" result ≫= getitem "humidity";
  wind_speed ← getitem "wind" result ≫= getitem "speed";
  description ← (getitem "weather" result ≫= getindex 0) ≫= getitem "description";
  visibility ← getitem "visibility" result;
  dt ← getitem "dt" result;
  timezone ← getitem "timezone" result;
  Some <$> WeatherInfoDTO_init temp pressure humidity wind_speed description
                               visibility dt timezone.

(** The top-level keys [get_weather] subscripts the body with. *)
Definition top_level_keys : list string :=
  ["main"; "wind"; "weather"; "visibility"; "dt"; "timezone"].

End Weather.

(** ** [news/services/news.py]: the news service *)

Module News.

(** Modelled from the spec: [geo/models.py] is not among the sources.  A
    persisted [Country] row, with the two columns the service relies on: the
    primary key and the alpha-2 code. *)
Record Country : Type := {
  pk : Z;
  alpha2code : string;
}.

(** Modelled from the spec: [news/clients/shemas.py] is not among the
    sources.  A raw news item as the news provider's client hands it over:
    [author], [description] and [url] are optional. *)
Record NewsItemDTO : Type := {
  item_source : string;
  item_author : option string;
  item_title : string;
  item_description : option string;
  item_url : option string;
  item_published_at : datetime;
}.

(** Modelled from the spec: [news/models.py] is not among the sources.  A
    [News] object with the attributes [build_model] sets; [country_id] is the
    [Country] the object refers to. *)
Record News : Type := {
  country_id : Country;
  source : string;
  author : string;
  title : string;
  description : string;
  url : string;
  published_at : datetime;
}.

(** [needle in hay] for strings, which is also SQL's [LIKE '%needle%'] the
    [__contains] lookup compiles to (case-sensitive, as on PostgreSQL). *)
Fixpoint contains (needle hay : string) : bool :=
  String.prefix needle hay ||
  match hay with
  | EmptyString => false
  | String _ rest => contains needle rest
  end.

(** What a call leaves behind outside its return value. *)
Inductive event : Type :=
| NewsProviderCall (country_code : string)   (* [NewsClient().get_news(country_code)] *)
| CountryCodesCall                           (* [CountryService().get_countries_codes()] *)
| CountryFetchCall (country_code : string)   (* [CountryService().get_countries(country_code)] *)
| NewsInsert (rows : list News).             (* one [INSERT] into the news table *)

Definition is_insert (e : event) : bool :=
  match e with NewsInsert _ => true | _ => false end.

Section Service.

(** The state of everything outside the process: the news provider, the
    countries provider, the clock. *)
Variable Ext : Type.

(** The persisted store, the outside world, and the events so far. *)
Record world : Type := {
  news_table : list News;
  country_table : list Country;
  remote : Ext;
  trace : list event;
}.

(** A method of the service: it reads and changes the world, and returns
    or raises. *)
Definition M (A : Type) : Type := world -> result A * world.

#[export] Instance M_ret : MRet M := fun A a w => (Return a, w).
#[export] Instance M_bind : MBind M := fun A B f m w =>
  match m w with
  | (Return a, w') => f a w'
  | (Raise e, w') => (Raise e, w')
  end.

(** [news/clients/news.py] is not among the sources: the client's
    [get_news] is whatever the provider answers, [None] or a list of
    items, or an exception of the request. *)
Variable NewsClient_get_news :
  string -> Ext -> result (option (list NewsItemDTO)) * Ext.

(** [geo/services/country.py] is not among the sources.
    [get_countries_codes] gives the known codes with their primary keys,
    or [None]; [get_countries] fetches and persists country metadata, so
    it may change the country table. *)
Variable CountryService_get_countries_codes :
  list Country -> Ext -> result (option (gmap string Z)) * Ext.
Variable CountryService_get_countries :
  string -> list Country -> Ext -> result unit * (list Country * Ext).

Definition NewsClient_call (country_code : string) : M (option (list NewsItemDTO)) :=
  fun w =>
    let '(r, e) := NewsClient_get_news country_code (remote w) in
    (r, {| news_table := news_table w; country_table := country_table w;
           remote := e; trace := trace w ++ [NewsProviderCall country_code] |}).

Definition CountryService_codes_call : M (option (gmap string Z)) :=
  fun w =>
    let '(r, e) := CountryService_get_countries_codes (country_table w) (remote w) in
    (r, {| news_table := news_table w; country_table := country_table w;
           remote := e; trace := trace w ++ [CountryCodesCall] |}).

Definition CountryService_fetch_call (country_code : string) : M unit :=
  fun w =>
    let '(r, (countries, e)) :=
      CountryService_get_countries country_code (country_table w) (remote w) in
    (r, {| news_table := news_table w; country_table := countries;
           remote := e; trace := trace w ++ [CountryFetchCall country_code] |}).

(** The rows of [News] whose country has [country_code] within its alpha-2
    code. *)
Definition local_rows (country_code : string) (w : world) : list News :=
  List.filter (fun n => contains country_code (alpha2code (country_id n))) (news_table w).

(** [News.objects.filter(Q(country__alpha2code__contains=country_code))]. *)
Definition News_objects_filter_contains (country_code : string) : M (list News) :=
  fun w => (Return (local_rows country_code w), w).

(** [Country.objects.get(pk=country_id)]. *)
Definition Country_objects_get (country_pk : Z) : M Country :=
  fun w =>
    (match List.find (fun c => pk c =? country_pk) (country_table w) with
     | Some c => Return c
     | None => Raise DoesNotExist
     end, w).

(** [News.objects.bulk_create(objs, batch_size=...)].  With no object there
    is nothing to do.  Otherwise the column values of the first batch are
    prepared before its [INSERT] is sent, and a [News] object holds a
    [Country] instance in [country_id] (line 71), the attribute of the raw
    key of the relation [country] (line 25), where the column takes a
    primary key: the conversion of the instance to an integer raises
    [TypeError], and nothing is inserted, whatever the batch size. *)
Definition News_objects_bulk_create (objs : list News) (batch_size : nat)
    : M (list News) :=
  fun w =>
    match objs with
    | [] => (Return objs, w)
    | _ :: _ => (Raise TypeError, w)
    end.

(** [x if x else ""] for an optional string. *)
Definition or_empty (x : option string) : string :=
  match x with
  | Some s => if String.eqb s "" then "" else s
  | None => ""
  end.

Definition build_model (news_item : NewsItemDTO) (country_pk : Z) : M News :=
  country ← Country_objects_get country_pk;
  mret {| country_id := country;
          source := item_source news_item;
          author := or_empty (item_author news_item);
          title := item_title news_item;
          description := or_empty (item_description news_item);
          url := or_empty (item_url news_item);
          published_at := item_published_at news_item |}.

Definition save_news (country_pk : Z) (news : list NewsItemDTO) : M unit :=
  match news with
  | [] => mret tt
  | _ :: _ =>
      objs ← mapM (fun news_item => build_model news_item country_pk) news;
      _ ← News_objects_bulk_create objs 1000;
      mret tt
  end.

(** The truth value of an [Optional[list]]. *)
Definition has_items {A} (x : option (list A)) : bool :=
  match x with
  | Some (_ :: _) => true
  | _ => false
  end.

(** [codes is None or country_code not in codes]; the values of [codes]
    are primary keys, never [None], so this is also
    [codes is None or codes.get(country_code, None) is None]. *)
Definition unknown_code (country_code : string) (codes : option (gmap string Z)) : bool :=
  match codes with
  | None => true
  | Some known => bool_decide (known !! country_code = None)
  end.

(** Lines 25 to 35.  Every path that does not return [None] at line 33 ends
    in the [return] of line 35; the statements after it (lines 36 to 44) are
    never run and have no counterpart here.  The value returned is the
    client's, a list of its items. *)
Definition get_news (country_code : string) : M (option (list NewsItemDTO)) :=
  news ← News_objects_filter_contains country_code;
  match news with
  | [] =>
      news_data ← NewsClient_call country_code;
      if has_items news_data then
        codes ← CountryService_codes_call;
        if unknown_code country_code codes then
          _ ← CountryService_fetch_call country_code;
          codes ← CountryService_codes_call;
          if unknown_code country_code codes then mret None
          else NewsClient_call country_code
        else NewsClient_call country_code
      else NewsClient_call country_code
  | _ :: _ => NewsClient_call country_code
  end.

(** [w'] has the news rows of [w], and what happened in between was no
    insertion of news. *)
Definition frames (w w' : world) : Prop :=
  news_table w' = news_table w /\
  exists events, trace w' = trace w ++ events /\
                 forallb (fun e => negb (is_insert e)) events = true.

Definition framing {A} (m : M A) : Prop := forall w, frames w (m w).2.

End Service.

(** The value of a field with the default [""]: empty when the item's field
    is empty or absent, the item's field otherwise. *)
Definition defaulted (field : option string) (value : string) : Prop :=
  (field = None \/ field = Some "" -> value = "") /\
  (forall s, field = Some s -> value = s).

(** The object [build_model] makes of an item once it has the country. *)
Definition row (country : Country) (news_item : NewsItemDTO) : News :=
  {| country_id := country;
     source := item_source news_item;
     author := or_empty (item_author news_item);
     title := item_title news_item;
     description := or_empty (item_description news_item);
     url := or_empty (item_url news_item);
     published_at := item_published_at news_item |}.

Definition is_provider_call (e : event) : bool :=
  match e with NewsProviderCall _ => true | _ => false end.

Definition is_codes_call (e : event) : bool :=
  match e with CountryCodesCall => true | _ => false end.

Definition is_fetch_call (e : event) : bool :=
  match e with CountryFetchCall _ => true | _ => false end.

(** How many of the events are of a kind. *)
Definition occurrences (kind : event -> bool) (events : list event) : nat :=
  length (List.filter kind events).

Arguments local_rows {Ext}.
Arguments frames {Ext}.
Arguments framing {Ext A}.
Arguments news_table {Ext} w.
Arguments country_table {Ext} w.
Arguments remote {Ext} w.
Arguments trace {Ext} w.
Arguments Build_world {Ext}.
Arguments NewsClient_call {Ext}.
Arguments CountryService_codes_call {Ext}.
Arguments CountryService_fetch_call {Ext}.
Arguments News_objects_filter_contains {Ext}.
Arguments Country_objects_get {Ext}.
Arguments News_objects_bulk_create {Ext}.
Arguments build_model {Ext}.
Arguments save_news {Ext}.
Arguments get_news {Ext}.

End News.

(** ** Concrete environments

    Validators, provider answers and stores on which the statements below
    are evaluated. *)

Module Samples.

Import Weather News.

(** Validators of a model that accepts an input of the field's own type
    only; a [datetime] field takes an [int] as seconds since the epoch, in
    UTC. *)
#[export] Instance typed_validators : Pydantic.
Proof.
  refine {|
    float_validator v := match v with JFloat f => Some f | _ => None end;
    int_validator v := match v with JInt n => Some n | _ => None end;
    str_validator v := match v with JStr s => Some s | _ => None end;
    datetime_validator v :=
      match v with
      | JInt n => Some {| posix_us := n * 1000000; utcoffset := Some 0 |}
      | _ => None
      end;
  |}; reflexivity.
Defined.

(** The body of the specification's example. *)
Definition clouds_main : list (string * json) :=
  [("temp", JFloat 13.92%float); ("pressure", JInt 1023); ("humidity", JInt 54)].
Definition clouds_wind : list (string * json) := [("speed", JFloat 4.63%float)].
Definition clouds_weather : list (string * json) :=
  [("description", JStr "scattered clouds")].
Definition clouds_items : list (string * json) :=
  [("main", JObj clouds_main); ("wind", JObj clouds_wind);
   ("weather", JArr [JObj clouds_weather]); ("visibility", JInt 10000);
   ("dt", JInt 1661870592); ("timezone", JInt 7200)].

Definition clouds_response : response :=
  {| status_code := 200; response_content := Json (JObj clouds_items) |}.

(** The provider knows no such city. *)
Definition not_found_response : response :=
  {| status_code := 404;
     response_content := Json (JObj [("cod", JStr "404"); ("message", JStr "city not found")]) |}.

(** A 200 answer whose body has none of the expected keys. *)
Definition bare_response : response :=
  {| status_code := 200; response_content := Json (JObj [("cod", JInt 200)]) |}.

(** A 200 answer with an empty object for a body. *)
Definition empty_response : response :=
  {| status_code := 200; response_content := Json (JObj []) |}.

Definition answering (r : response) : string -> result response := fun _ => Return r.

(** The request times out. *)
Definition timing_out : string -> result response := fun _ => Raise TransportError.

(** The example body with its [weather] list emptied. *)
Definition clouds_no_entry : list (string * json) :=
  [("main", JObj clouds_main); ("wind", JObj clouds_wind); ("weather", JArr []);
   ("visibility", JInt 10000); ("dt", JInt 1661870592); ("timezone", JInt 7200)].

(** The example body with a text for [visibility]. *)
Definition clouds_foggy : list (string * json) :=
  [("main", JObj clouds_main); ("wind", JObj clouds_wind);
   ("weather", JArr [JObj clouds_weather]); ("visibility", JStr "poor");
   ("dt", JInt 1661870592); ("timezone", JInt 7200)].

(** A store with one country and one piece of news about it. *)
Definition estonia : Country := {| pk := 1; alpha2code := "EE" |}.

Definition noon : datetime := {| posix_us := 1661870592000000; utcoffset := Some 0 |}.

Definition local_story : News :=
  {| country_id := estonia; source := "ERR"; author := ""; title := "Song festival";
     description := ""; url := "https://news.err.ee/1"; published_at := noon |}.

(** The outside world is the number of requests the news provider has
    answered. *)
Definition populated : world nat :=
  {| news_table := [local_story]; country_table := [estonia]; remote := 0%nat; trace := [] |}.

Definition no_news : world nat :=
  {| news_table := []; country_table := [estonia]; remote := 0%nat; trace := [] |}.

Definition blank : world nat :=
  {| news_table := []; country_table := []; remote := 0%nat; trace := [] |}.

(** The provider's headline changes from one request to the next. *)
Definition headline (k : nat) : NewsItemDTO :=
  {| item_source := "ERR"; item_author := None;
     item_title := match k with O => "Morning edition" | S _ => "Later edition" end;
     item_description := Some ""; item_url := Some "https://news.err.ee/2";
     item_published_at := noon |}.

Definition rolling_news : string -> nat -> result (option (list NewsItemDTO)) * nat :=
  fun _ k => (Return (Some [headline k]), S k).

(** The provider has no article and says so with an empty list. *)
Definition empty_news : string -> nat -> result (option (list NewsItemDTO)) * nat :=
  fun _ k => (Return (Some []), S k).

(** The known codes are those of the country table, [None] when it is
    empty. *)
Definition table_codes : list Country -> nat -> result (option (gmap string Z)) * nat :=
  fun countries k =>
    (Return match countries with
            | [] => None
            | _ :: _ => Some (list_to_map ((fun c => (alpha2code c, pk c)) <$> countries))
            end, k).

(** The provider has nothing to say. *)
Definition silent_news : string -> nat -> result (option (list NewsItemDTO)) * nat :=
  fun _ k => (Return None, S k).

(** The countries provider knows Estonia and nothing else. *)
Definition fetch_estonia : string -> list Country -> nat -> result unit * (list Country * nat) :=
  fun country_code countries k =>
    (Return tt,
     (if String.eqb country_code "EE" then countries ++ [estonia] else countries, k)).

End Samples.

(** ** The data-transfer objects: properties *)

Module ShemasFacts.

(** A [LocationDTO] is made exactly of the codes of two characters. *)
Lemma LocationDTO_init_length city alpha2code :
  (String.length alpha2code = 2%nat ->
   LocationDTO_init city alpha2code =
   Return {| location_city := city; location_alpha2code := alpha2code |}) /\
  (String.length alpha2code <> 2%nat ->
   LocationDTO_init city alpha2code = Raise ValidationError).
Proof.
  unfold LocationDTO_init. split; intros Hlength.
  - rewrite Hlength. reflexivity.
  - destruct (Nat.leb_spec 2 (String.length alpha2code));
      destruct (Nat.leb_spec (String.length alpha2code) 2); simpl;
      solve [reflexivity | lia].
Qed.

(** The country objects take a code of any length. *)
Lemma CountryShortDTO_init_any name alpha2code :
  CountryShortDTO_init name alpha2code =
  Return {| country_name := name; country_alpha2code := alpha2code |}.
Proof. reflexivity. Qed.

Lemma CountryDTO_init_any name alpha2code alpha3code capital region subregion
    population latitude longitude demonym area numeric_code flag currencies languages :
  raises (CountryDTO_init name alpha2code alpha3code capital region subregion
            population latitude longitude demonym area numeric_code flag
            currencies languages) = false.
Proof. reflexivity. Qed.

(** C7, as the code has it.  With a code of two characters a [LocationDTO],
    a [CountryShortDTO] and a [CountryDTO] are all made.  With a code of any
    other length the [LocationDTO] is refused with [ValidationError]; the
    country objects, whose [alpha2code] is a plain [str], are made all the
    same. *)
Theorem alpha2code_length city name alpha2code alpha3code capital region subregion
    population latitude longitude demonym area numeric_code flag currencies languages :
  (String.length alpha2code = 2%nat ->
   LocationDTO_init city alpha2code =
   Return {| location_city := city; location_alpha2code := alpha2code |}) /\
  (String.length alpha2code <> 2%nat ->
   LocationDTO_init city alpha2code = Raise ValidationError) /\
  CountryShortDTO_init name alpha2code =
  Return {| country_name := name; country_alpha2code := alpha2code |} /\
  raises (CountryDTO_init name alpha2code alpha3code capital region subregion
            population latitude longitude demonym area numeric_code flag
            currencies languages) = false.
Proof.
  split; [apply LocationDTO_init_length |].
  split; [apply LocationDTO_init_length |].
  split; [apply CountryShortDTO_init_any | apply CountryDTO_init_any].
Qed.

Lemma alpha2code_length_witness :
  LocationDTO_init "Tallinn" "EE" =
  Return {| location_city := "Tallinn"; location_alpha2code := "EE" |} /\
  LocationDTO_init "Tallinn" "EST" = Raise ValidationError.
Proof.
  split.
  - apply (proj1 (alpha2code_length "Tallinn" "Estonia" "EE" "EST" "Tallinn" "Europe"
                    "Northern Europe" 1331057 58.595%float 25.013%float "Estonian"
                    45227%float "233" "http://assets.promptapi.com/flags/EE.svg" ∅ ∅)).
    reflexivity.
  - apply (proj1 (proj2 (alpha2code_length "Tallinn" "Estonia" "EST" "EST" "Tallinn"
                           "Europe" "Northern Europe" 1331057 58.595%float 25.013%float
                           "Estonian" 45227%float "233"
                           "http://assets.promptapi.com/flags/EE.svg" ∅ ∅))).
    discriminate.
Defined.

(** The code ["EST"] of three characters makes a [CountryShortDTO] and a
    [CountryDTO]. *)
Lemma country_alpha2code_unchecked :
  String.length "EST" = 3%nat /\
  CountryShortDTO_init "Estonia" "EST" =
    Return {| country_name := "Estonia"; country_alpha2code := "EST" |} /\
  raises (CountryDTO_init "Estonia" "EST" "EST" "Tallinn" "Europe" "Northern Europe"
            1331057 58.595%float 25.013%float "Estonian" 45227%float "233"
            "http://assets.promptapi.com/flags/EE.svg"
            {[ {| currency_code := "EUR" |} ]}
            {[ {| language_name := "Estonian"; language_native_name := "eesti" |} ]})
  = false.
Proof. repeat split. Qed.

End ShemasFacts.

(** ** The weather client: properties *)

Module WeatherFacts.

Import Weather Samples.

Lemma response_json_body r v : body r = Some v -> response_json r = Return v.
Proof.
  unfold body, response_json. destruct (response_content r); congruence.
Qed.

Section Facts.

Context `{Pydantic}.
Variable client_get : string -> result response.
Variable API_KEY_OPENWEATHER : string.

Local Abbreviation get_weather := (get_weather client_get API_KEY_OPENWEATHER).
Local Abbreviation _request := (_request client_get).

Lemma request_ok location r :
  client_get (endpoint API_KEY_OPENWEATHER location) = Return r ->
  status_code r = 200 ->
  _request (endpoint API_KEY_OPENWEATHER location) = response_json r.
Proof.
  intros Hget Hstatus. unfold Weather._request. rewrite Hget. simpl.
  rewrite Hstatus. reflexivity.
Qed.

Lemma request_not_ok location r :
  client_get (endpoint API_KEY_OPENWEATHER location) = Return r ->
  status_code r <> 200 ->
  _request (endpoint API_KEY_OPENWEATHER location) = Return JNull.
Proof.
  intros Hget Hstatus. unfold Weather._request. rewrite Hget. simpl.
  destruct (Z.eqb_spec (status_code r) HTTPStatus_OK) as [Heq | _];
    [contradiction | reflexivity].
Qed.

Lemma request_failed location e :
  client_get (endpoint API_KEY_OPENWEATHER location) = Raise e ->
  _request (endpoint API_KEY_OPENWEATHER location) = Raise e.
Proof. intros Hget. unfold Weather._request. rewrite Hget. reflexivity. Qed.

(** The subscripts of a failed path raise nothing else. *)
Lemma getitem_raise key v e :
  getitem key v = Raise e -> is_subscript_error e = true.
Proof.
  destruct v; simpl; try (intros [= <-]; reflexivity).
  destruct (dict_get key items); intros [= <-]; reflexivity.
Qed.

Lemma getindex_raise i v e :
  getindex i v = Raise e -> is_subscript_error e = true.
Proof.
  destruct v; simpl; try (intros [= <-]; reflexivity).
  - destruct (_ ≫= _); intros [= <-]; reflexivity.
  - destruct (_ ≫= _); intros [= <-]; reflexivity.
Qed.

(** [get_weather] is the request followed by the projection of its
    result. *)
Lemma get_weather_unfold location :
  get_weather location =
  result ← _request (endpoint API_KEY_OPENWEATHER location);
  if truthy result then project result else Return None.
Proof. reflexivity. Qed.

(** The projection, for any values the validators accept. *)
Lemma get_weather_projects location r items main wind w ws
    vtemp vpressure vhumidity vspeed vdescription vvisibility vdt vtimezone
    t p h s d v time tz :
  client_get (endpoint API_KEY_OPENWEATHER location) = Return r ->
  status_code r = 200 ->
  body r = Some (JObj items) ->
  dict_get "main" items = Some (JObj main) ->
  dict_get "temp" main = Some vtemp ->
  dict_get "pressure" main = Some vpressure ->
  dict_get "humidity" main = Some vhumidity ->
  dict_get "wind" items = Some (JObj wind) ->
  dict_get "speed" wind = Some vspeed ->
  dict_get "weather" items = Some (JArr (JObj w :: ws)) ->
  dict_get "description" w = Some vdescription ->
  dict_get "visibility" items = Some vvisibility ->
  dict_get "dt" items = Some vdt ->
  dict_get "timezone" items = Some vtimezone ->
  float_validator vtemp = Some t ->
  int_validator vpressure = Some p ->
  int_validator vhumidity = Some h ->
  float_validator vspeed = Some s ->
  str_validator vdescription = Some d ->
  int_validator vvisibility = Some v ->
  datetime_validator vdt = Some time ->
  int_validator vtimezone = Some tz ->
  get_weather location =
  Return (Some {| temp := t; pressure := p; humidity := h; wind_speed := s;
                  description := d; visibility := v; dt := time; timezone := tz |}).
Proof.
  intros Hget Hstatus Hbody Hmain Htemp Hpressure Hhumidity Hwind Hspeed
         Hweather Hdescription Hvisibility Hdt Htimezone
         Vt Vp Vh Vs Vd Vv Vtime Vtz.
  rewrite get_weather_unfold, (request_ok _ _ Hget Hstatus).
  rewrite (response_json_body _ _ Hbody). simpl.
  destruct items as [| item items']; [discriminate |].
  unfold project, getitem. rewrite Hmain, Hwind, Hweather, Hvisibility, Hdt, Htimezone.
  simpl. rewrite Htemp, Hpressure, Hhumidity, Hspeed. simpl.
  rewrite Hdescription. simpl.
  unfold WeatherInfoDTO_init.
  rewrite Vt, Vp, Vh, Vs, Vd, Vv, Vtime, Vtz. reflexivity.
Qed.

(** What the projection can raise. *)
Lemma project_raise v e :
  project v = Raise e -> is_subscript_error e = true \/ e = ValidationError.
Proof.
  unfold project.
  repeat match goal with
  | |- context [getitem ?k ?x] =>
      let E := fresh "E" in
      destruct (getitem k x) eqn:E; simpl;
      [| intros [= <-]; left; exact (getitem_raise _ _ _ E)]
  | |- context [getindex ?k ?x] =>
      let E := fresh "E" in
      destruct (getindex k x) eqn:E; simpl;
      [| intros [= <-]; left; exact (getindex_raise _ _ _ E)]
  end.
  unfold WeatherInfoDTO_init.
  repeat match goal with
  | |- context [match ?o with Some _ => _ | None => _ end] => destruct o
  end; simpl; intros [= <-]; right; reflexivity.
Qed.

(** The projection never returns [None]. *)
Lemma project_not_none v : project v <> Return None.
Proof.
  unfold project.
  repeat match goal with
  | |- context [getitem ?k ?x] => destruct (getitem k x); simpl; [| discriminate]
  | |- context [getindex ?k ?x] => destruct (getindex k x); simpl; [| discriminate]
  end.
  destruct (WeatherInfoDTO_init _ _ _ _ _ _ _ _); discriminate.
Qed.

(** A top-level key that cannot be read makes the projection raise, before
    any validation. *)
Lemma project_missing v key :
  key ∈ top_level_keys ->
  raises (getitem key v) = true ->
  exists e, project v = Raise e /\ is_subscript_error e = true.
Proof.
  intros Hkey Hraises. unfold project.
  repeat match goal with
  | |- context [mbind _ (getitem ?k ?x)] =>
      let E := fresh "E" in
      destruct (getitem k x) eqn:E; simpl;
      [| eexists; split; [reflexivity | exact (getitem_raise _ _ _ E)]]
  | |- context [mbind _ (getindex ?k ?x)] =>
      let E := fresh "E" in
      destruct (getindex k x) eqn:E; simpl;
      [| eexists; split; [reflexivity | exact (getindex_raise _ _ _ E)]]
  end.
  unfold top_level_keys in Hkey.
  repeat (apply elem_of_cons in Hkey as [-> | Hkey];
          [match goal with E : getitem _ v = Return _ |- _ =>
             rewrite E in Hraises; discriminate Hraises end |]).
  apply elem_of_nil in Hkey. contradiction.
Qed.

(** C4. When the provider answers 200 with a well-formed body, that is a
    body whose nested values have the types of the fields they fill ([dt]
    being a value the [datetime] validation accepts), [get_weather]
    returns a [WeatherInfoDTO] whose fields are these values:
    [temp = main.temp], [pressure = main.pressure],
    [humidity = main.humidity], [wind_speed = wind.speed],
    [description = weather[0].description], and [visibility], [dt],
    [timezone] from the top level. *)
Theorem get_weather_well_formed location r items main wind w ws t p h s d v vdt time tz :
  client_get (endpoint API_KEY_OPENWEATHER location) = Return r ->
  status_code r = 200 ->
  body r = Some (JObj items) ->
  dict_get "main" items = Some (JObj main) ->
  dict_get "temp" main = Some (JFloat t) ->
  dict_get "pressure" main = Some (JInt p) ->
  dict_get "humidity" main = Some (JInt h) ->
  dict_get "wind" items = Some (JObj wind) ->
  dict_get "speed" wind = Some (JFloat s) ->
  dict_get "weather" items = Some (JArr (JObj w :: ws)) ->
  dict_get "description" w = Some (JStr d) ->
  dict_get "visibility" items = Some (JInt v) ->
  dict_get "dt" items = Some vdt ->
  datetime_validator vdt = Some time ->
  dict_get "timezone" items = Some (JInt tz) ->
  get_weather location =
  Return (Some {| temp := t; pressure := p; humidity := h; wind_speed := s;
                  description := d; visibility := v; dt := time; timezone := tz |}).
Proof.
  intros Hget Hstatus Hbody Hmain Htemp Hpressure Hhumidity Hwind Hspeed
         Hweather Hdescription Hvisibility Hdt Vtime Htimezone.
  eapply get_weather_projects; eauto;
    auto using float_validator_float, int_validator_int, str_validator_str.
Qed.

(** C5, as the code has it.  A non-200 answer makes [get_weather] return
    [None] without raising; a failure of the request itself is not caught:
    the exception of [client.get] reaches the caller. *)
Theorem get_weather_failure location :
  (forall r,
      client_get (endpoint API_KEY_OPENWEATHER location) = Return r ->
      status_code r <> 200 ->
      get_weather location = Return None) /\
  (forall e,
      client_get (endpoint API_KEY_OPENWEATHER location) = Raise e ->
      get_weather location = Raise e).
Proof.
  split.
  - intros r Hget Hstatus.
    rewrite get_weather_unfold, (request_not_ok _ _ Hget Hstatus). reflexivity.
  - intros e Hget.
    rewrite get_weather_unfold, (request_failed _ _ Hget). reflexivity.
Qed.

(** C6, as the code has it.  On a 200 answer with a JSON body, a falsy
    body (an empty object, [null], ...) gives [None]; a truthy body never
    gives [None]: [get_weather] returns a [WeatherInfoDTO] or lets an
    exception through, which is the [KeyError], [IndexError] or
    [TypeError] of a failed subscript or pydantic's [ValidationError].  In
    particular a non-empty object without one of the keys [main], [wind],
    [weather], [visibility], [dt], [timezone] makes it raise. *)
Theorem get_weather_ok_body location r v :
  client_get (endpoint API_KEY_OPENWEATHER location) = Return r ->
  status_code r = 200 ->
  body r = Some v ->
  (truthy v = false -> get_weather location = Return None) /\
  (truthy v = true ->
     (exists info, get_weather location = Return (Some info)) \/
     (exists e, get_weather location = Raise e /\
                (is_subscript_error e = true \/ e = ValidationError))) /\
  (forall items key,
      v = JObj items -> items <> [] -> key ∈ top_level_keys ->
      dict_get key items = None ->
      exists e, get_weather location = Raise e /\ is_subscript_error e = true).
Proof.
  intros Hget Hstatus Hbody.
  rewrite get_weather_unfold, (request_ok _ _ Hget Hstatus).
  rewrite (response_json_body _ _ Hbody). simpl.
  split; [| split].
  - intros ->. reflexivity.
  - intros ->.
    destruct (project v) as [[info |] | e] eqn:Hproject.
    + left. eauto.
    + exfalso. exact (project_not_none _ Hproject).
    + right. exists e. split; [reflexivity |]. exact (project_raise _ _ Hproject).
  - intros items key -> Hitems Hkey Hmissing.
    destruct items as [| item items']; [contradiction |]. simpl.
    apply project_missing with (key := key); [assumption |].
    unfold getitem. rewrite Hmissing. reflexivity.
Qed.

End Facts.

(** The specification's example body gives the specification's example
    record. *)
Lemma get_weather_well_formed_witness :
  get_weather (answering clouds_response) "key" "Tallinn,EE" =
  Return (Some {| temp := 13.92%float; pressure := 1023; humidity := 54;
                  wind_speed := 4.63%float; description := "scattered clouds";
                  visibility := 10000;
                  dt := {| posix_us := 1661870592000000; utcoffset := Some 0 |};
                  timezone := 7200 |}).
Proof.
  apply (get_weather_well_formed (answering clouds_response) "key" "Tallinn,EE"
           clouds_response clouds_items clouds_main clouds_wind clouds_weather []
           13.92%float 1023 54 4.63%float "scattered clouds" 10000
           (JInt 1661870592) {| posix_us := 1661870592000000; utcoffset := Some 0 |}
           7200); first [reflexivity | discriminate].
Defined.

Lemma get_weather_failure_witness :
  get_weather (answering not_found_response) "key" "Atlantis,ZZ" = Return None /\
  get_weather timing_out "key" "Tallinn,EE" = Raise TransportError.
Proof.
  split.
  - apply (proj1 (get_weather_failure (answering not_found_response) "key" "Atlantis,ZZ")
             not_found_response); [reflexivity | discriminate].
  - apply (proj2 (get_weather_failure timing_out "key" "Tallinn,EE") TransportError).
    reflexivity.
Defined.

(** A request that times out: [get_weather] raises instead of returning
    [None]. *)
Lemma get_weather_timeout_raises :
  get_weather timing_out "key" "Tallinn,EE" = Raise TransportError.
Proof. reflexivity. Qed.

Lemma get_weather_ok_body_witness :
  get_weather (answering empty_response) "key" "Tallinn,EE" = Return None /\
  exists e, get_weather (answering bare_response) "key" "Tallinn,EE" = Raise e /\
            is_subscript_error e = true.
Proof.
  split.
  - apply (proj1 (get_weather_ok_body (answering empty_response) "key" "Tallinn,EE"
                    empty_response (JObj []) eq_refl eq_refl eq_refl)).
    reflexivity.
  - apply (proj2 (proj2 (get_weather_ok_body (answering bare_response) "key" "Tallinn,EE"
                           bare_response (JObj [("cod", JInt 200)])
                           eq_refl eq_refl eq_refl))
             [("cod", JInt 200)] "main");
      [reflexivity | discriminate | | reflexivity].
    unfold top_level_keys. apply elem_of_cons. left. reflexivity.
Defined.

(** A 200 answer whose body lacks [main]: the [KeyError] of the first
    subscript reaches the caller. *)
Lemma get_weather_bare_body_raises :
  get_weather (answering bare_response) "key" "Tallinn,EE" = Raise (KeyError (JStr "main")).
Proof. reflexivity. Qed.

End WeatherFacts.

(** ** The news service: properties *)

Module NewsFacts.

Import News Samples.

(** *** Building and saving rows *)

Section Rows.

Context {Ext : Type}.
Implicit Types (w : world Ext) (news : list NewsItemDTO).

Lemma or_empty_defaulted field : defaulted field (or_empty field).
Proof.
  split.
  - intros [-> | ->]; reflexivity.
  - intros s ->. simpl. destruct (String.eqb_spec s ""); congruence.
Qed.

Lemma find_pk_none country_pk (countries : list Country) :
  (forall c, c ∈ countries -> pk c <> country_pk) ->
  List.find (fun c => pk c =? country_pk) countries = None.
Proof.
  intros Hnone.
  destruct (List.find _ countries) as [c |] eqn:Hfind; [| reflexivity].
  apply List.find_some in Hfind as [Hin Hpk].
  apply list_elem_of_In, Hnone in Hin. apply Z.eqb_eq in Hpk. contradiction.
Qed.

Lemma find_pk_some country_pk (countries : list Country) c :
  c ∈ countries -> pk c = country_pk ->
  exists c', List.find (fun c => pk c =? country_pk) countries = Some c' /\
             c' ∈ countries /\ pk c' = country_pk.
Proof.
  intros Hin Hpk.
  destruct (List.find _ countries) as [c' |] eqn:Hfind.
  - apply List.find_some in Hfind as [Hin' Hpk'].
    exists c'. split; [reflexivity |].
    split; [apply list_elem_of_In; assumption | apply Z.eqb_eq; assumption].
  - apply list_elem_of_In in Hin.
    pose proof (List.find_none _ _ Hfind c Hin) as Hno. simpl in Hno.
    apply Z.eqb_neq in Hno. contradiction.
Qed.

Lemma build_model_found news_item country_pk w c :
  List.find (fun c => pk c =? country_pk) (country_table w) = Some c ->
  build_model news_item country_pk w = (Return (row c news_item), w).
Proof.
  intros Hfind. unfold build_model, mbind, M_bind, Country_objects_get.
  rewrite Hfind. reflexivity.
Qed.

Lemma build_model_missing news_item country_pk w :
  List.find (fun c => pk c =? country_pk) (country_table w) = None ->
  build_model news_item country_pk w = (Raise DoesNotExist, w).
Proof.
  intros Hfind. unfold build_model, mbind, M_bind, Country_objects_get.
  rewrite Hfind. reflexivity.
Qed.

(** The comprehension of [save_news] when the country is there. *)
Lemma comprehension_found news country_pk w c :
  List.find (fun c => pk c =? country_pk) (country_table w) = Some c ->
  mapM (fun news_item => build_model news_item country_pk) news w =
  (Return (row c <$> news), w).
Proof.
  intros Hfind. induction news as [| news_item news IH]; [reflexivity |].
  simpl. unfold mbind at 1, M_bind at 1.
  rewrite (build_model_found _ _ _ _ Hfind).
  unfold mbind at 1, M_bind at 1. rewrite IH. reflexivity.
Qed.

(** C8. [build_model] raises [DoesNotExist] when no persisted [Country]
    has the primary key [country_id].  When one has, it returns a [News]
    of that country whose [author], [description] and [url] are the empty
    string where the item's field is empty or absent and the item's field
    otherwise, and whose [source], [title] and [published_at] are the
    item's.  The store is left as it was. *)
Theorem build_model_spec news_item country_pk w :
  ((forall c, c ∈ country_table w -> pk c <> country_pk) ->
   build_model news_item country_pk w = (Raise DoesNotExist, w)) /\
  (forall c, c ∈ country_table w -> pk c = country_pk ->
   exists n,
     build_model news_item country_pk w = (Return n, w) /\
     country_id n ∈ country_table w /\
     pk (country_id n) = country_pk /\
     defaulted (item_author news_item) (author n) /\
     defaulted (item_description news_item) (description n) /\
     defaulted (item_url news_item) (url n) /\
     source n = item_source news_item /\
     title n = item_title news_item /\
     published_at n = item_published_at news_item).
Proof.
  split.
  - intros Hnone. apply build_model_missing, find_pk_none, Hnone.
  - intros c Hin Hpk.
    destruct (find_pk_some _ _ _ Hin Hpk) as (c' & Hfind & Hin' & Hpk').
    exists (row c' news_item).
    split; [apply build_model_found, Hfind |].
    repeat split; auto using or_empty_defaulted;
      apply or_empty_defaulted; assumption.
Qed.

(** What [save_news] does, case by case: nothing on an empty list; on a
    non-empty one the [DoesNotExist] of [build_model] when no country has
    the primary key, and the [TypeError] of [bulk_create] when one has.
    The world is never changed. *)
Lemma save_news_outcome country_pk news w :
  (save_news country_pk news w).2 = w /\
  (news = [] -> (save_news country_pk news w).1 = Return tt) /\
  (news <> [] ->
   (forall c, c ∈ country_table w -> pk c <> country_pk) ->
   (save_news country_pk news w).1 = Raise DoesNotExist) /\
  (news <> [] ->
   forall c, c ∈ country_table w -> pk c = country_pk ->
   (save_news country_pk news w).1 = Raise TypeError).
Proof.
  destruct news as [| news_item news].
  - repeat split; try reflexivity; intros Hnews; contradiction.
  - destruct (List.find (fun c => pk c =? country_pk) (country_table w))
      as [c' |] eqn:Hfind.
    + assert (save_news country_pk (news_item :: news) w = (Raise TypeError, w)) as ->.
      { unfold save_news, mbind at 1, M_bind at 1.
        rewrite (comprehension_found _ _ _ _ Hfind). reflexivity. }
      repeat split; try discriminate.
      intros _ Hnone. apply List.find_some in Hfind as [Hin Hpk].
      apply list_elem_of_In, Hnone in Hin. apply Z.eqb_eq in Hpk. contradiction.
    + assert (save_news country_pk (news_item :: news) w = (Raise DoesNotExist, w)) as ->.
      { unfold save_news, mbind at 1, M_bind at 1. simpl.
        unfold mbind at 1, M_bind at 1.
        rewrite (build_model_missing _ _ _ Hfind). reflexivity. }
      repeat split; try discriminate.
      intros _ c Hin Hpk.
      destruct (find_pk_some _ _ _ Hin Hpk) as (c' & Hfind' & _). congruence.
Qed.

End Rows.

(** *** Getting news *)

Section GetNews.

Context {Ext : Type}.
Variable NewsClient_get_news :
  string -> Ext -> result (option (list NewsItemDTO)) * Ext.
Variable CountryService_get_countries_codes :
  list Country -> Ext -> result (option (gmap string Z)) * Ext.
Variable CountryService_get_countries :
  string -> list Country -> Ext -> result unit * (list Country * Ext).

Local Abbreviation get_news :=
  (get_news NewsClient_get_news CountryService_get_countries_codes
            CountryService_get_countries).
Local Abbreviation provider := (NewsClient_call NewsClient_get_news).
Local Abbreviation known_codes :=
  (CountryService_codes_call CountryService_get_countries_codes).
Local Abbreviation fetch_countries :=
  (CountryService_fetch_call CountryService_get_countries).

Local Abbreviation framing := (framing (Ext := Ext)).

Implicit Types (w : world Ext).

Lemma frames_refl w : frames w w.
Proof. split; [reflexivity |]. exists []. rewrite app_nil_r. split; reflexivity. Qed.

Lemma frames_trans (w1 w2 w3 : world Ext) :
  frames w1 w2 -> frames w2 w3 -> frames w1 w3.
Proof.
  intros [Hn12 (ev12 & Ht12 & Hev12)] [Hn23 (ev23 & Ht23 & Hev23)].
  split; [congruence |].
  exists (ev12 ++ ev23). split.
  - rewrite Ht23, Ht12, app_assoc. reflexivity.
  - rewrite forallb_app, Hev12, Hev23. reflexivity.
Qed.

Lemma framing_ret {A} (a : A) : framing (mret a).
Proof. intros w. apply frames_refl. Qed.

Lemma framing_bind {A B} (m : M Ext A) (f : A -> M Ext B) :
  framing m -> (forall a, framing (f a)) -> framing (m ≫= f).
Proof.
  intros Hm Hf w. specialize (Hm w). unfold mbind, M_bind.
  destruct (m w) as [[a | e] w1]; simpl in *; [| exact Hm].
  eapply frames_trans; [exact Hm | apply Hf].
Qed.

Lemma framing_filter country_code :
  framing (News_objects_filter_contains country_code).
Proof. intros w. apply frames_refl. Qed.

Lemma framing_provider country_code : framing (provider country_code).
Proof.
  intros w. unfold NewsClient_call.
  destruct (NewsClient_get_news _ _) as [r e]. split; [reflexivity |].
  eexists. split; reflexivity.
Qed.

Lemma framing_known_codes : framing known_codes.
Proof.
  intros w. unfold CountryService_codes_call.
  destruct (CountryService_get_countries_codes _ _) as [r e]. split; [reflexivity |].
  eexists. split; reflexivity.
Qed.

Lemma framing_fetch_countries country_code : framing (fetch_countries country_code).
Proof.
  intros w. unfold CountryService_fetch_call.
  destruct (CountryService_get_countries _ _ _) as [r [countries e]].
  split; [reflexivity |]. eexists. split; reflexivity.
Qed.

Lemma framing_get_news country_code : framing (get_news country_code).
Proof.
  unfold News.get_news.
  apply framing_bind; [apply framing_filter |]. intros [| n news].
  - apply framing_bind; [apply framing_provider |]. intros news_data.
    destruct (has_items news_data); [| apply framing_provider].
    apply framing_bind; [apply framing_known_codes |]. intros codes.
    destruct (unknown_code country_code codes); [| apply framing_provider].
    apply framing_bind; [apply framing_fetch_countries |]. intros _.
    apply framing_bind; [apply framing_known_codes |]. intros codes'.
    destruct (unknown_code country_code codes');
      [apply framing_ret | apply framing_provider].
  - apply framing_provider.
Qed.

(** With local rows, [get_news] is the call of the provider. *)
Lemma get_news_local country_code w :
  local_rows country_code w <> [] ->
  get_news country_code w = provider country_code w.
Proof.
  intros Hrows. unfold News.get_news, mbind, M_bind, News_objects_filter_contains.
  fold (local_rows country_code w).
  destruct (local_rows country_code w); [contradiction | reflexivity].
Qed.

(** C2, as the code has it.  No call of [get_news], however it ends,
    changes the persisted [News] rows or inserts any: the rows are the
    same after one call and after two calls in a row. *)
Theorem get_news_keeps_news_rows country_code w :
  news_table (get_news country_code w).2 = news_table w /\
  (exists events,
      trace (get_news country_code w).2 = trace w ++ events /\
      forallb (fun e => negb (is_insert e)) events = true) /\
  news_table (get_news country_code (get_news country_code w).2).2 = news_table w.
Proof.
  pose proof (framing_get_news country_code w) as [Hrows Hevents].
  pose proof (framing_get_news country_code (get_news country_code w).2) as [Hrows' _].
  split; [exact Hrows | split; [exact Hevents | congruence]].
Qed.

(** C3, as the code has it.  [get_news] can return an empty list.  In the
    branch where no local row matches and nothing is fetched, with a
    provider that answers with an empty list, it returns the empty list
    and not [None].  [None] is what it returns when news was fetched and the
    country code is unknown and stays unknown after the countries were
    fetched. *)
Theorem get_news_empty_answer country_code w :
  (forall answer e1 e2,
      local_rows country_code w = [] ->
      NewsClient_get_news country_code (remote w) = (Return answer, e1) ->
      has_items answer = false ->
      NewsClient_get_news country_code e1 = (Return (Some []), e2) ->
      (get_news country_code w).1 = Return (Some [])) /\
  (forall items e1 codes e2 countries e3 codes' e4,
      local_rows country_code w = [] ->
      NewsClient_get_news country_code (remote w) = (Return (Some items), e1) ->
      items <> [] ->
      CountryService_get_countries_codes (country_table w) e1 = (Return codes, e2) ->
      unknown_code country_code codes = true ->
      CountryService_get_countries country_code (country_table w) e2 =
        (Return tt, (countries, e3)) ->
      CountryService_get_countries_codes countries e3 = (Return codes', e4) ->
      unknown_code country_code codes' = true ->
      (get_news country_code w).1 = Return None).
Proof.
  split.
  - intros answer e1 e2 Hrows Hfirst Hnothing Hsecond.
    unfold News.get_news, mbind, M_bind, News_objects_filter_contains.
    rewrite Hrows.
    unfold NewsClient_call at 1. rewrite Hfirst. simpl. rewrite Hnothing.
    unfold NewsClient_call. simpl. rewrite Hsecond. reflexivity.
  - intros items e1 codes e2 countries e3 codes' e4
           Hrows Hfirst Hitems Hcodes Hunknown Hfetch Hcodes' Hunknown'.
    destruct items as [| news_item items]; [contradiction |].
    unfold News.get_news, mbind, M_bind, News_objects_filter_contains.
    rewrite Hrows.
    unfold NewsClient_call at 1. rewrite Hfirst. simpl.
    unfold CountryService_codes_call at 1. simpl. rewrite Hcodes, Hunknown.
    unfold CountryService_fetch_call. simpl. rewrite Hfetch.
    unfold CountryService_codes_call. simpl. rewrite Hcodes', Hunknown'.
    reflexivity.
Qed.

(** C10. When no local row matches, the provider's first answer has items
    and the country code is known, at once or after the countries were
    fetched, [get_news] calls the provider a second time and returns what
    this second call returns: the items of the first answer are dropped. *)
Theorem get_news_fetches_twice country_code w items e1 :
  local_rows country_code w = [] ->
  NewsClient_get_news country_code (remote w) = (Return (Some items), e1) ->
  items <> [] ->
  (forall known e2,
      CountryService_get_countries_codes (country_table w) e1 = (Return (Some known), e2) ->
      is_Some (known !! country_code) ->
      get_news country_code w =
      ((NewsClient_get_news country_code e2).1,
       {| news_table := news_table w;
          country_table := country_table w;
          remote := (NewsClient_get_news country_code e2).2;
          trace := trace w ++ [NewsProviderCall country_code; CountryCodesCall;
                               NewsProviderCall country_code] |})) /\
  (forall codes e2 countries e3 known e4,
      CountryService_get_countries_codes (country_table w) e1 = (Return codes, e2) ->
      unknown_code country_code codes = true ->
      CountryService_get_countries country_code (country_table w) e2 =
        (Return tt, (countries, e3)) ->
      CountryService_get_countries_codes countries e3 = (Return (Some known), e4) ->
      is_Some (known !! country_code) ->
      get_news country_code w =
      ((NewsClient_get_news country_code e4).1,
       {| news_table := news_table w;
          country_table := countries;
          remote := (NewsClient_get_news country_code e4).2;
          trace := trace w ++ [NewsProviderCall country_code; CountryCodesCall;
                               CountryFetchCall country_code; CountryCodesCall;
                               NewsProviderCall country_code] |})).
Proof.
  intros Hrows Hfirst Hitems.
  assert (forall known, is_Some (known !! country_code) ->
                        unknown_code country_code (Some known) = false) as Hknown.
  { intros known [key Hkey]. simpl. apply bool_decide_eq_false. congruence. }
  destruct items as [| news_item items]; [contradiction |].
  split.
  - intros known e2 Hcodes Hsome.
    unfold News.get_news, mbind, M_bind, News_objects_filter_contains.
    fold (local_rows country_code w). rewrite Hrows.
    unfold NewsClient_call at 1. rewrite Hfirst. simpl.
    unfold CountryService_codes_call. simpl. rewrite Hcodes.
    rewrite (Hknown _ Hsome).
    unfold NewsClient_call. simpl.
    destruct (NewsClient_get_news country_code e2) as [r e3]. simpl.
    rewrite <- !app_assoc. reflexivity.
  - intros codes e2 countries e3 known e4 Hcodes Hunknown Hfetch Hcodes' Hsome.
    unfold News.get_news, mbind, M_bind, News_objects_filter_contains.
    fold (local_rows country_code w). rewrite Hrows.
    unfold NewsClient_call at 1. rewrite Hfirst. simpl.
    unfold CountryService_codes_call at 1. simpl. rewrite Hcodes, Hunknown.
    unfold CountryService_fetch_call. simpl. rewrite Hfetch.
    unfold CountryService_codes_call. simpl. rewrite Hcodes'.
    rewrite (Hknown _ Hsome).
    unfold NewsClient_call. simpl.
    destruct (NewsClient_get_news country_code e4) as [r e5]. simpl.
    rewrite <- !app_assoc. reflexivity.
Qed.

End GetNews.

Local Abbreviation get_news_EE :=
  (get_news rolling_news table_codes fetch_estonia "EE").

(** C1, on a store that has news of Estonia.  The local row matches ["EE"],
    yet [get_news] calls the provider and returns the provider's answer,
    not the local row. *)
Theorem get_news_with_local_rows_calls_provider :
  local_rows "EE" populated = [local_story] /\
  get_news_EE populated =
  (Return (Some [headline 0]),
   {| news_table := [local_story]; country_table := [estonia]; remote := 1%nat;
      trace := [NewsProviderCall "EE"] |}).
Proof. split; reflexivity. Qed.

(** Two calls in a row on a populated store, two different results. *)
Lemma get_news_twice_differs :
  exists w1 w2,
    get_news_EE populated = (Return (Some [headline 0]), w1) /\
    get_news_EE w1 = (Return (Some [headline 1]), w2) /\
    news_table w1 = news_table populated /\
    local_rows "EE" populated <> [] /\
    headline 0 <> headline 1.
Proof.
  do 2 eexists. repeat split; try reflexivity; discriminate.
Qed.

(** Nothing local and an empty list from the provider: [get_news] returns
    the empty list of the second call. *)
Lemma get_news_returns_empty_list :
  get_news empty_news table_codes fetch_estonia "EE" no_news =
  (Return (Some []),
   {| news_table := []; country_table := [estonia]; remote := 2%nat;
      trace := [NewsProviderCall "EE"; NewsProviderCall "EE"] |}).
Proof. reflexivity. Qed.

Lemma get_news_empty_answer_witness :
  (get_news empty_news table_codes fetch_estonia "EE" no_news).1 = Return (Some []) /\
  (get_news rolling_news table_codes fetch_estonia "ZZ" blank).1 = Return None.
Proof.
  split.
  - apply (proj1 (get_news_empty_answer empty_news table_codes fetch_estonia "EE" no_news)
             (Some []) 1%nat 2%nat eq_refl eq_refl eq_refl eq_refl).
  - apply (proj2 (get_news_empty_answer rolling_news table_codes fetch_estonia "ZZ" blank)
             [headline 0] 1%nat None 1%nat [] 1%nat None 1%nat);
      first [reflexivity | discriminate].
Defined.

Lemma build_model_spec_witness :
  build_model (headline 0) 7 no_news = (Raise DoesNotExist, no_news) /\
  exists n, build_model (headline 0) 1 no_news = (Return n, no_news) /\
            author n = "" /\ title n = "Morning edition".
Proof.
  split.
  - apply (proj1 (build_model_spec (headline 0) 7 no_news)).
    intros c Hin. apply list_elem_of_singleton in Hin. subst c. discriminate.
  - destruct (proj2 (build_model_spec (headline 0) 1 no_news) estonia)
      as (n & Hbuild & _ & _ & [Hauthor _] & _ & _ & _ & Htitle & _).
    + apply list_elem_of_singleton. reflexivity.
    + reflexivity.
    + exists n. split; [exact Hbuild |]. split; [| exact Htitle].
      apply Hauthor. left. reflexivity.
Defined.

(** C9, on a store that has the country.  With one item to save,
    [build_model] finds the country and makes the row, and [bulk_create]
    raises [TypeError] on it: nothing is inserted.  With no item nothing is
    done. *)
Theorem save_news_existing_country_raises :
  build_model (headline 0) 1 no_news = (Return (row estonia (headline 0)), no_news) /\
  save_news 1 [headline 0] no_news = (Raise TypeError, no_news) /\
  save_news 1 [] no_news = (Return tt, no_news).
Proof. repeat split. Qed.

Lemma get_news_fetches_twice_witness :
  get_news_EE no_news =
  (Return (Some [headline 1]),
   {| news_table := []; country_table := [estonia]; remote := 2%nat;
      trace := [NewsProviderCall "EE"; CountryCodesCall; NewsProviderCall "EE"] |}) /\
  get_news_EE blank =
  (Return (Some [headline 1]),
   {| news_table := []; country_table := [estonia]; remote := 2%nat;
      trace := [NewsProviderCall "EE"; CountryCodesCall; CountryFetchCall "EE";
                CountryCodesCall; NewsProviderCall "EE"] |}).
Proof.
  split.
  - apply (proj1 (get_news_fetches_twice rolling_news table_codes fetch_estonia "EE"
                    no_news [headline 0] 1%nat eq_refl eq_refl ltac:(discriminate))
             (list_to_map [("EE", 1)]) 1%nat eq_refl).
    exists 1. reflexivity.
  - apply (proj2 (get_news_fetches_twice rolling_news table_codes fetch_estonia "EE"
                    blank [headline 0] 1%nat eq_refl eq_refl ltac:(discriminate))
             None 1%nat [estonia] 1%nat (list_to_map [("EE", 1)]) 1%nat
             eq_refl eq_refl eq_refl eq_refl).
    exists 1. reflexivity.
Defined.

End NewsFacts.

(** ** The weather client: what each outcome means *)

Module WeatherEdges.

Import Weather Samples WeatherFacts.

Section Edges.

Context `{Pydantic}.
Variable client_get : string -> result response.
Variable API_KEY_OPENWEATHER : string.

Local Abbreviation get_weather := (get_weather client_get API_KEY_OPENWEATHER).
Local Abbreviation url := (endpoint API_KEY_OPENWEATHER).

(** A subscript by a key that succeeds was made on an object that has the
    key. *)
Lemma getitem_return key v x :
  getitem key v = Return x -> exists items, v = JObj items /\ dict_get key items = Some x.
Proof.
  destruct v; simpl; try discriminate.
  destruct (dict_get key items) eqn:Hget; intros [= <-]. eauto.
Qed.

(** X1. [None] comes out of [get_weather] in two cases and no other: the
    provider answered with another status than 200, or it answered 200 with
    a falsy JSON body. *)
Theorem get_weather_none_iff location :
  get_weather location = Return None <->
  exists r,
    client_get (url location) = Return r /\
    (status_code r <> 200 \/
     (status_code r = 200 /\ exists v, body r = Some v /\ truthy v = false)).
Proof.
  rewrite get_weather_unfold. unfold _request.
  destruct (client_get (url location)) as [r | e]; simpl.
  - unfold HTTPStatus_OK. destruct (Z.eqb_spec (status_code r) 200) as [Hok | Hnot].
    + destruct (body r) as [v |] eqn:Hbody.
      * rewrite (response_json_body _ _ Hbody). simpl.
        destruct (truthy v) eqn:Htruthy.
        -- split.
           ++ intros Hnone. exfalso. exact (project_not_none _ Hnone).
           ++ intros (r' & [= <-] & [Hne | (_ & v' & Hv' & Hfalse)]); [contradiction |].
              rewrite Hbody in Hv'. injection Hv' as <-. congruence.
        -- split; [| reflexivity]. intros _. exists r. split; [reflexivity |].
           right. split; [assumption |]. exists v. rewrite Hbody. split; [reflexivity | assumption].
      * split.
        -- unfold body in Hbody. unfold response_json.
           destruct (response_content r); discriminate.
        -- intros (r' & [= <-] & [Hne | (_ & v' & Hv' & _)]); [contradiction |].
           rewrite Hbody in Hv'. discriminate.
    + split; [| reflexivity]. intros _. exists r. split; [reflexivity | left; assumption].
  - split; [discriminate |]. intros (r & Hr & _). discriminate.
Qed.

(** X2. A [WeatherInfoDTO] comes out of [get_weather] exactly when the provider
    answered 200 with an object that has [main], [wind] and [weather], the
    first two being objects and the third a list that starts with an
    object, and the validation accepts the eight values; each field is then
    the validated value, whatever else the body holds. *)
Theorem get_weather_info_iff location info :
  get_weather location = Return (Some info) <->
  exists r items main wind w ws,
    client_get (url location) = Return r /\
    status_code r = 200 /\
    body r = Some (JObj items) /\
    dict_get "main" items = Some (JObj main) /\
    dict_get "wind" items = Some (JObj wind) /\
    dict_get "weather" items = Some (JArr (JObj w :: ws)) /\
    dict_get "temp" main ≫= float_validator = Some (temp info) /\
    dict_get "pressure" main ≫= int_validator = Some (pressure info) /\
    dict_get "humidity" main ≫= int_validator = Some (humidity info) /\
    dict_get "speed" wind ≫= float_validator = Some (wind_speed info) /\
    dict_get "description" w ≫= str_validator = Some (description info) /\
    dict_get "visibility" items ≫= int_validator = Some (visibility info) /\
    dict_get "dt" items ≫= datetime_validator = Some (dt info) /\
    dict_get "timezone" items ≫= int_validator = Some (timezone info).
Proof.
  split.
  - rewrite get_weather_unfold. unfold _request.
    destruct (client_get (url location)) as [r | e] eqn:Hget; simpl; [| discriminate].
    unfold HTTPStatus_OK. destruct (Z.eqb_spec (status_code r) 200) as [Hok | Hnot];
      [| discriminate].
    destruct (body r) as [v |] eqn:Hbody;
      [rewrite (response_json_body _ _ Hbody); simpl
      | unfold body in Hbody; unfold response_json;
        destruct (response_content r); discriminate].
    destruct (truthy v); [| discriminate]. unfold project.
    destruct (getitem "main" v) as [vmain |] eqn:Emain; simpl; [| discriminate].
    apply getitem_return in Emain as (items & -> & Hmain).
    destruct (getitem "temp" vmain) as [vtemp |] eqn:Etemp; simpl; [| discriminate].
    apply getitem_return in Etemp as (main & -> & Htemp).
    simpl. destruct (dict_get "pressure" main) as [vpressure |] eqn:Hpressure;
      simpl; [| discriminate].
    destruct (dict_get "humidity" main) as [vhumidity |] eqn:Hhumidity;
      simpl; [| discriminate].
    destruct (dict_get "wind" items) as [vwind |] eqn:Hwind; simpl; [| discriminate].
    destruct (getitem "speed" vwind) as [vspeed |] eqn:Espeed; simpl; [| discriminate].
    apply getitem_return in Espeed as (wind & -> & Hspeed).
    destruct (dict_get "weather" items) as [vweather |] eqn:Hweather;
      simpl; [| discriminate].
    destruct (getindex 0 vweather) as [vfirst |] eqn:Efirst; simpl; [| discriminate].
    destruct (getitem "description" vfirst) as [vdescription |] eqn:Edescription;
      simpl; [| discriminate].
    apply getitem_return in Edescription as (w & -> & Hdescription).
    assert (exists ws, vweather = JArr (JObj w :: ws)) as [ws ->].
    { destruct vweather as [| | | | s | l | o]; simpl in Efirst; try discriminate.
      - destruct (index_position 0 (String.length s) ≫= _); discriminate.
      - destruct l as [| first ws]; [discriminate |].
        simpl in Efirst. injection Efirst as ->. eauto. }
    destruct (dict_get "visibility" items) as [vvisibility |] eqn:Hvisibility;
      simpl; [| discriminate].
    destruct (dict_get "dt" items) as [vdt |] eqn:Hdt; simpl; [| discriminate].
    destruct (dict_get "timezone" items) as [vtimezone |] eqn:Htimezone;
      simpl; [| discriminate].
    unfold WeatherInfoDTO_init.
    destruct (float_validator vtemp) eqn:Vt; [| discriminate].
    destruct (int_validator vpressure) eqn:Vp; [| discriminate].
    destruct (int_validator vhumidity) eqn:Vh; [| discriminate].
    destruct (float_validator vspeed) eqn:Vs; [| discriminate].
    destruct (str_validator vdescription) eqn:Vd; [| discriminate].
    destruct (int_validator vvisibility) eqn:Vv; [| discriminate].
    destruct (datetime_validator vdt) eqn:Vtime; [| discriminate].
    destruct (int_validator vtimezone) eqn:Vtz; [| discriminate].
    simpl. intros [= <-]. simpl.
    exists r, items, main, wind, w, ws.
    rewrite Htemp, Hpressure, Hhumidity, Hspeed, Hdescription, Hvisibility, Hdt,
      Htimezone. simpl.
    rewrite Vt, Vp, Vh, Vs, Vd, Vv, Vtime, Vtz.
    repeat split; reflexivity || assumption.
  - intros (r & items & main & wind & w & ws & Hget & Hstatus & Hbody & Hmain & Hwind
            & Hweather & Vt & Vp & Vh & Vs & Vd & Vv & Vtime & Vtz).
    destruct (dict_get "temp" main) as [vtemp |] eqn:Htemp; [| discriminate].
    destruct (dict_get "pressure" main) as [vpressure |] eqn:Hpressure; [| discriminate].
    destruct (dict_get "humidity" main) as [vhumidity |] eqn:Hhumidity; [| discriminate].
    destruct (dict_get "speed" wind) as [vspeed |] eqn:Hspeed; [| discriminate].
    destruct (dict_get "description" w) as [vdescription |] eqn:Hdescription;
      [| discriminate].
    destruct (dict_get "visibility" items) as [vvisibility |] eqn:Hvisibility;
      [| discriminate].
    destruct (dict_get "dt" items) as [vdt |] eqn:Hdt; [| discriminate].
    destruct (dict_get "timezone" items) as [vtimezone |] eqn:Htimezone; [| discriminate].
    simpl in *. destruct info.
    eapply get_weather_projects; eauto.
Qed.

(** X3. A body that does not decode is looked at only on a 200 answer: there
    the exception of [response.json()] comes out, [JSONDecodeError] for a
    text that is not JSON and [UnicodeDecodeError] for bytes that are no
    text; on any other status [None] is returned. *)
Theorem get_weather_body_not_json location r :
  client_get (url location) = Return r ->
  body r = None ->
  get_weather location =
  if status_code r =? 200 then
    match response_content r with
    | NotUtf8 => Raise UnicodeDecodeError
    | _ => Raise JSONDecodeError
    end
  else Return None.
Proof.
  intros Hget Hbody. rewrite get_weather_unfold. unfold _request.
  rewrite Hget. simpl. unfold HTTPStatus_OK, response_json.
  destruct (status_code r =? 200); [| reflexivity].
  unfold body in Hbody. destruct (response_content r); [discriminate | |]; reflexivity.
Qed.

(** X4. A truthy body that is not an object (a list, a string, a number,
    [true]) fails at the first subscript with [TypeError]. *)
Theorem get_weather_body_not_object location r v :
  client_get (url location) = Return r ->
  status_code r = 200 ->
  body r = Some v ->
  truthy v = true ->
  (forall items, v <> JObj items) ->
  get_weather location = Raise TypeError.
Proof.
  intros Hget Hstatus Hbody Htruthy Hobject.
  rewrite get_weather_unfold, (request_ok _ _ _ _ Hget Hstatus).
  rewrite (response_json_body _ _ Hbody). simpl. rewrite Htruthy.
  destruct v; try reflexivity. exfalso. exact (Hobject _ eq_refl).
Qed.

(** X5. An empty [weather] list fails with [IndexError], once [main] and [wind]
    have given their values. *)
Theorem get_weather_no_weather_entry location r items main wind
    vtemp vpressure vhumidity vspeed :
  client_get (url location) = Return r ->
  status_code r = 200 ->
  body r = Some (JObj items) ->
  dict_get "main" items = Some (JObj main) ->
  dict_get "temp" main = Some vtemp ->
  dict_get "pressure" main = Some vpressure ->
  dict_get "humidity" main = Some vhumidity ->
  dict_get "wind" items = Some (JObj wind) ->
  dict_get "speed" wind = Some vspeed ->
  dict_get "weather" items = Some (JArr []) ->
  get_weather location = Raise IndexError.
Proof.
  intros Hget Hstatus Hbody Hmain Htemp Hpressure Hhumidity Hwind Hspeed Hweather.
  rewrite get_weather_unfold, (request_ok _ _ _ _ Hget Hstatus).
  rewrite (response_json_body _ _ Hbody). simpl.
  destruct items as [| item items']; [discriminate |].
  unfold project, getitem. rewrite Hmain, Hwind, Hweather. simpl.
  rewrite Htemp, Hpressure, Hhumidity, Hspeed. reflexivity.
Qed.

(** X6. When every subscript succeeds and the validation rejects one of the
    eight values, [ValidationError] comes out: no partial record, no
    [None]. *)
Theorem get_weather_rejected_value location r items main wind w ws
    vtemp vpressure vhumidity vspeed vdescription vvisibility vdt vtimezone :
  client_get (url location) = Return r ->
  status_code r = 200 ->
  body r = Some (JObj items) ->
  dict_get "main" items = Some (JObj main) ->
  dict_get "temp" main = Some vtemp ->
  dict_get "pressure" main = Some vpressure ->
  dict_get "humidity" main = Some vhumidity ->
  dict_get "wind" items = Some (JObj wind) ->
  dict_get "speed" wind = Some vspeed ->
  dict_get "weather" items = Some (JArr (JObj w :: ws)) ->
  dict_get "description" w = Some vdescription ->
  dict_get "visibility" items = Some vvisibility ->
  dict_get "dt" items = Some vdt ->
  dict_get "timezone" items = Some vtimezone ->
  float_validator vtemp = None \/ int_validator vpressure = None \/
  int_validator vhumidity = None \/ float_validator vspeed = None \/
  str_validator vdescription = None \/ int_validator vvisibility = None \/
  datetime_validator vdt = None \/ int_validator vtimezone = None ->
  get_weather location = Raise ValidationError.
Proof.
  intros Hget Hstatus Hbody Hmain Htemp Hpressure Hhumidity Hwind Hspeed
         Hweather Hdescription Hvisibility Hdt Htimezone Hrejected.
  rewrite get_weather_unfold, (request_ok _ _ _ _ Hget Hstatus).
  rewrite (response_json_body _ _ Hbody). simpl.
  destruct items as [| item items']; [discriminate |].
  unfold project, getitem. rewrite Hmain, Hwind, Hweather, Hvisibility, Hdt, Htimezone.
  simpl. rewrite Htemp, Hpressure, Hhumidity, Hspeed. simpl.
  rewrite Hdescription. simpl. unfold WeatherInfoDTO_init.
  destruct (float_validator vtemp); [| reflexivity].
  destruct (int_validator vpressure); [| reflexivity].
  destruct (int_validator vhumidity); [| reflexivity].
  destruct (float_validator vspeed); [| reflexivity].
  destruct (str_validator vdescription); [| reflexivity].
  destruct (int_validator vvisibility); [| reflexivity].
  destruct (datetime_validator vdt); [| reflexivity].
  destruct (int_validator vtimezone); [| reflexivity].
  repeat (destruct Hrejected as [Hrejected | Hrejected]; [discriminate |]).
  discriminate.
Qed.

End Edges.

Lemma get_weather_body_not_json_witness :
  get_weather (answering {| status_code := 200; response_content := NotJson |})
              "key" "Tallinn,EE" = Raise JSONDecodeError /\
  get_weather (answering {| status_code := 200; response_content := NotUtf8 |})
              "key" "Tallinn,EE" = Raise UnicodeDecodeError /\
  get_weather (answering {| status_code := 502; response_content := NotUtf8 |})
              "key" "Tallinn,EE" = Return None.
Proof.
  split; [| split].
  - apply (get_weather_body_not_json
             (answering {| status_code := 200; response_content := NotJson |})
             "key" "Tallinn,EE" {| status_code := 200; response_content := NotJson |}
             eq_refl eq_refl).
  - apply (get_weather_body_not_json
             (answering {| status_code := 200; response_content := NotUtf8 |})
             "key" "Tallinn,EE" {| status_code := 200; response_content := NotUtf8 |}
             eq_refl eq_refl).
  - apply (get_weather_body_not_json
             (answering {| status_code := 502; response_content := NotUtf8 |})
             "key" "Tallinn,EE" {| status_code := 502; response_content := NotUtf8 |}
             eq_refl eq_refl).
Defined.

Lemma get_weather_body_not_object_witness :
  get_weather (answering {| status_code := 200; response_content := Json (JArr [JInt 1]) |})
              "key" "Tallinn,EE" = Raise TypeError.
Proof.
  apply (get_weather_body_not_object
           (answering {| status_code := 200; response_content := Json (JArr [JInt 1]) |})
           "key" "Tallinn,EE" {| status_code := 200; response_content := Json (JArr [JInt 1]) |}
           (JArr [JInt 1]) eq_refl eq_refl eq_refl eq_refl).
  discriminate.
Defined.

Lemma get_weather_no_weather_entry_witness :
  get_weather (answering {| status_code := 200; response_content := Json (JObj clouds_no_entry) |})
              "key" "Tallinn,EE" = Raise IndexError.
Proof.
  apply (get_weather_no_weather_entry
           (answering {| status_code := 200; response_content := Json (JObj clouds_no_entry) |})
           "key" "Tallinn,EE" {| status_code := 200; response_content := Json (JObj clouds_no_entry) |}
           clouds_no_entry clouds_main clouds_wind
           (JFloat 13.92%float) (JInt 1023) (JInt 54) (JFloat 4.63%float));
    reflexivity.
Defined.

Lemma get_weather_rejected_value_witness :
  get_weather (answering {| status_code := 200; response_content := Json (JObj clouds_foggy) |})
              "key" "Tallinn,EE" = Raise ValidationError.
Proof.
  apply (get_weather_rejected_value
           (answering {| status_code := 200; response_content := Json (JObj clouds_foggy) |})
           "key" "Tallinn,EE" {| status_code := 200; response_content := Json (JObj clouds_foggy) |}
           clouds_foggy clouds_main clouds_wind clouds_weather []
           (JFloat 13.92%float) (JInt 1023) (JInt 54) (JFloat 4.63%float)
           (JStr "scattered clouds") (JStr "poor") (JInt 1661870592) (JInt 7200));
    try reflexivity.
  do 5 right. left. reflexivity.
Defined.

End WeatherEdges.

(** ** The news service: paths, calls and composition *)

Module NewsEdges.

Import News Samples NewsFacts.

(** *** Which rows are local *)

Lemma append_cons c s t : String c s +:+ t = String c (s +:+ t).
Proof. reflexivity. Qed.

Lemma prefix_append needle hay :
  String.prefix needle hay = true <-> exists post, hay = needle +:+ post.
Proof.
  revert hay. induction needle as [| a needle IH]; intros hay.
  - destruct hay; simpl; split; eauto.
  - destruct hay as [| b hay]; simpl.
    + split; [discriminate | intros [post [=]]].
    + destruct (Ascii.ascii_dec a b) as [-> | Hne].
      * rewrite IH. split; intros [post Hpost]; exists post;
          rewrite append_cons in *; congruence.
      * split; [discriminate |]. intros [post Hpost].
        rewrite append_cons in Hpost. congruence.
Qed.

Lemma contains_append needle hay :
  contains needle hay = true <-> exists pre post, hay = pre +:+ needle +:+ post.
Proof.
  induction hay as [| b hay IH]; cbn [contains].
  - rewrite orb_false_r, prefix_append. split.
    + intros [post Hpost]. exists "", post. exact Hpost.
    + intros (pre & post & Hhay). destruct pre as [| c pre]; [eauto |].
      rewrite append_cons in Hhay. discriminate.
  - rewrite orb_true_iff, prefix_append, IH. split.
    + intros [[post Hpost] | (pre & post & Hhay)].
      * exists "", post. exact Hpost.
      * exists (String b pre), post. rewrite append_cons. congruence.
    + intros (pre & post & Hhay). destruct pre as [| c pre].
      * left. eauto.
      * right. rewrite append_cons in Hhay. injection Hhay as _ Hhay. eauto.
Qed.

(** X7. The local rows of a country code are the rows whose country's alpha-2
    code has the country code somewhere within it; so the empty code selects
    every row, and a code selects the rows of every country whose code
    merely contains it. *)
Theorem local_rows_substring {Ext} country_code (w : world Ext) :
  (forall n,
      n ∈ local_rows country_code w <->
      n ∈ news_table w /\
      exists pre post, alpha2code (country_id n) = pre +:+ country_code +:+ post) /\
  local_rows "" w = news_table w.
Proof.
  unfold local_rows. split.
  - intros n. rewrite list_elem_of_In, List.filter_In, <- list_elem_of_In, contains_append.
    reflexivity.
  - induction (news_table w) as [| n rows IH]; simpl; [reflexivity |].
    destruct (alpha2code (country_id n)); simpl; rewrite IH; reflexivity.
Qed.

(** *** The paths of [get_news] *)

Section Paths.

Context {Ext : Type}.
Variable NewsClient_get_news :
  string -> Ext -> result (option (list NewsItemDTO)) * Ext.
Variable CountryService_get_countries_codes :
  list Country -> Ext -> result (option (gmap string Z)) * Ext.
Variable CountryService_get_countries :
  string -> list Country -> Ext -> result unit * (list Country * Ext).

Local Abbreviation get_news :=
  (get_news NewsClient_get_news CountryService_get_countries_codes
            CountryService_get_countries).

Implicit Types (w : world Ext).

(** Every collaborator outcome along a call, one case each. *)
Local Ltac paths :=
  unfold News.get_news, mbind, M_bind, mret, M_ret, News_objects_filter_contains,
    NewsClient_call, CountryService_codes_call, CountryService_fetch_call;
  repeat match goal with
  | |- context [local_rows ?c ?w] => destruct (local_rows c w); simpl
  | |- context [NewsClient_get_news ?c ?e] =>
      destruct (NewsClient_get_news c e) as [[? | ?] ?] eqn:?; simpl
  | |- context [CountryService_get_countries_codes ?c ?e] =>
      destruct (CountryService_get_countries_codes c e) as [[? | ?] ?] eqn:?; simpl
  | |- context [CountryService_get_countries ?k ?c ?e] =>
      destruct (CountryService_get_countries k c e) as [[? | ?] [? ?]] eqn:?; simpl
  | |- context [has_items ?x] => destruct (has_items x); simpl
  | |- context [unknown_code ?k ?x] => destruct (unknown_code k x); simpl
  end.

(** X10. When no local row matches and the provider has items, but the country
    code is unknown and stays unknown after the countries were fetched,
    [get_news] returns [None] without calling the provider again; the
    countries that were fetched stay in the store. *)
Theorem get_news_unresolved country_code w items e1 codes e2 countries e3 codes' e4 :
  local_rows country_code w = [] ->
  NewsClient_get_news country_code (remote w) = (Return (Some items), e1) ->
  items <> [] ->
  CountryService_get_countries_codes (country_table w) e1 = (Return codes, e2) ->
  unknown_code country_code codes = true ->
  CountryService_get_countries country_code (country_table w) e2 =
    (Return tt, (countries, e3)) ->
  CountryService_get_countries_codes countries e3 = (Return codes', e4) ->
  unknown_code country_code codes' = true ->
  get_news country_code w =
  (Return None,
   {| news_table := news_table w;
      country_table := countries;
      remote := e4;
      trace := trace w ++ [NewsProviderCall country_code; CountryCodesCall;
                           CountryFetchCall country_code; CountryCodesCall] |}).
Proof.
  intros Hrows Hfirst Hitems Hcodes Hunknown Hfetch Hcodes' Hunknown'.
  destruct items as [| news_item items]; [contradiction |].
  unfold News.get_news, mbind, M_bind, News_objects_filter_contains.
  rewrite Hrows.
  unfold NewsClient_call at 1. rewrite Hfirst. simpl.
  unfold CountryService_codes_call at 1. simpl. rewrite Hcodes, Hunknown.
  unfold CountryService_fetch_call. simpl. rewrite Hfetch.
  unfold CountryService_codes_call. simpl. rewrite Hcodes', Hunknown'.
  unfold mret, M_ret. rewrite <- !app_assoc. reflexivity.
Qed.

(** X11. When no local row matches and the provider's first answer is [None] or
    an empty list, the Country Service is not consulted: [get_news] calls
    the provider a second time and returns what that call returns. *)
Theorem get_news_nothing_fetched country_code w answer e1 :
  local_rows country_code w = [] ->
  NewsClient_get_news country_code (remote w) = (Return answer, e1) ->
  has_items answer = false ->
  get_news country_code w =
  ((NewsClient_get_news country_code e1).1,
   {| news_table := news_table w;
      country_table := country_table w;
      remote := (NewsClient_get_news country_code e1).2;
      trace := trace w ++ [NewsProviderCall country_code;
                           NewsProviderCall country_code] |}).
Proof.
  intros Hrows Hfirst Hnothing.
  unfold News.get_news, mbind, M_bind, News_objects_filter_contains.
  rewrite Hrows.
  unfold NewsClient_call at 1. rewrite Hfirst. simpl. rewrite Hnothing.
  unfold NewsClient_call. simpl.
  destruct (NewsClient_get_news country_code e1) as [r e2]. simpl.
  rewrite <- !app_assoc. reflexivity.
Qed.

(** X12. Whatever the store and the collaborators, one call of [get_news] calls
    the news provider once or twice, asks for the known codes at most
    twice, has the countries fetched at most once, and inserts no news. *)
Theorem get_news_calls country_code w :
  exists events,
    trace (get_news country_code w).2 = trace w ++ events /\
    (1 <= occurrences is_provider_call events <= 2)%nat /\
    (occurrences is_codes_call events <= 2)%nat /\
    (occurrences is_fetch_call events <= 1)%nat /\
    (occurrences is_fetch_call events <= occurrences is_codes_call events)%nat /\
    occurrences is_insert events = 0%nat.
Proof.
  paths; rewrite <- ?app_assoc; simpl;
    (eexists; split; [reflexivity |]); cbv; repeat split; lia.
Qed.

(** X13. The country table after a call is the table before it, unless the
    countries were fetched: then it is what [get_countries] made of the
    table before. *)
Theorem get_news_country_table country_code w :
  country_table (get_news country_code w).2 = country_table w \/
  exists e,
    (CountryService_get_countries country_code (country_table w) e).2.1 =
    country_table (get_news country_code w).2.
Proof.
  paths; try (left; reflexivity);
    right;
    match goal with
    | H : CountryService_get_countries _ _ ?e = _ |- _ => exists e; rewrite H; reflexivity
    end.
Qed.

End Paths.

Lemma get_news_unresolved_witness :
  get_news rolling_news table_codes fetch_estonia "ZZ" blank =
  (Return None,
   {| news_table := []; country_table := []; remote := 1%nat;
      trace := [NewsProviderCall "ZZ"; CountryCodesCall; CountryFetchCall "ZZ";
                CountryCodesCall] |}).
Proof.
  apply (get_news_unresolved rolling_news table_codes fetch_estonia "ZZ" blank
           [headline 0] 1%nat None 1%nat [] 1%nat None 1%nat);
    first [reflexivity | discriminate].
Defined.

Lemma get_news_nothing_fetched_witness :
  get_news silent_news table_codes fetch_estonia "EE" no_news =
  (Return None,
   {| news_table := []; country_table := [estonia]; remote := 2%nat;
      trace := [NewsProviderCall "EE"; NewsProviderCall "EE"] |}).
Proof.
  apply (get_news_nothing_fetched silent_news table_codes fetch_estonia "EE" no_news
           None 1%nat eq_refl eq_refl eq_refl).
Defined.

End NewsEdges.
